(** * AI Carpenter Bot: the build-plan executor of [AI_Carpenter_Bot/index.js]

  A shallow embedding of the script that replays a build plan through a
  mineflayer bot, and the properties of its command stream. *)

From Stdlib Require Import ZArith Lia Ascii String.
From stdpp Require Import base option list strings pretty gmap.

Open Scope string_scope.
Open Scope list_scope.

(** ** JavaScript numbers

  Every coordinate in the script is a JavaScript number.  The script only
  adds, floors, parses, prints and compares them, and the [vec3] package
  subtracts, multiplies and takes a square root to measure a distance.  The
  executor is embedded over any number system offering these operations. *)

Class JsNumber := {
  num : Type;
  (** numeric literals of the script: [0], [2], [4], [5] *)
  lit : Z -> num;
  (** [a + b], [a - b], [a * b] *)
  add : num -> num -> num;
  sub : num -> num -> num;
  mul : num -> num -> num;
  (** [Math.sqrt], [Math.floor] *)
  sqrt : num -> num;
  floor : num -> num;
  (** the global [parseFloat] *)
  parseFloat : string -> num;
  (** interpolation of a number in a template literal *)
  numToString : num -> string;
  (** [a > b] and [a <= b] *)
  gtb : num -> num -> bool;
  leb : num -> num -> bool;
  (** the two comparisons never hold together *)
  leb_not_gtb : forall a b, leb a b = true -> gtb a b = false
  }.

(** ** The [vec3] package

  [Vec3] is an immutable-by-convention triple of numbers.  The script uses
  the constructor, [offset], [floored], [distanceTo] and the string
  conversion; [offset] and [floored] build a new vector and leave the
  receiver as it was. *)

Module Vec3.
Section Vec3.
Context `{JsNumber}.

Record t := make { x : num; y : num; z : num }.

Definition offset (v : t) (dx dy dz : num) : t :=
  make (add (x v) dx) (add (y v) dy) (add (z v) dz).

Definition floored (v : t) : t :=
  make (floor (x v)) (floor (y v)) (floor (z v)).

Definition distanceTo (v other : t) : num :=
  let dx := sub (x other) (x v) in
  let dy := sub (y other) (y v) in
  let dz := sub (z other) (z v) in
  sqrt (add (add (mul dx dx) (mul dy dy)) (mul dz dz)).

Definition toString (v : t) : string :=
  "(" +:+ numToString (x v) +:+ ", " +:+ numToString (y v) +:+ ", "
      +:+ numToString (z v) +:+ ")".
End Vec3.
Arguments t : clear implicits.
Arguments t {_}.
End Vec3.

(** ** Observable actions

  Everything the script does to the outside: console output, process exit,
  and the calls it makes on the mineflayer bot.  A run is the list of these
  in the order they happen. *)

Inductive Event `{JsNumber} : Type :=
  | ConsoleLog (line : string)
  | ConsoleError (line : string)
  | ProcessExit (code : Z)
  | Uncaught (error : string)
  | CreateBot (host : string) (port : Z) (username : string)
  | Chat (message : string)
  | WaitForTicks (ticks : nat)
  | StartFlying
  | LookAt (point : Vec3.t)
  | Quit.

(** ** Scripts

  A script yields the actions it performed and, unless the process ended
  inside it ([process.exit], an uncaught exception), a result. *)

Module Script.
Section Script.
Context `{JsNumber}.

Definition t (A : Type) : Type := list Event * option A.

Definition ret {A} (a : A) : t A := ([], Some a).

Definition bind {A B} (c : t A) (k : A -> t B) : t B :=
  match c with
  | (tr, Some a) => let '(tr', b) := k a in (tr ++ tr', b)
  | (tr, None) => (tr, None)
  end.

Definition emit (e : Event) : t unit := ([e], Some tt).

Definition halt {A} : t A := ([], None).

Definition trace {A} (c : t A) : list Event := fst c.
Definition result {A} (c : t A) : option A := snd c.
End Script.
End Script.

Declare Scope script_scope.
Delimit Scope script_scope with script.
Notation "x <- c ;; k" := (Script.bind c (fun x => k))
  (at level 100, c at next level, right associativity) : script_scope.
Notation "c ;; k" := (Script.bind c (fun _ => k))
  (at level 100, right associativity) : script_scope.
Open Scope script_scope.

(** ** Plans, arguments and the world *)

(** One entry of the plan file: [{ x, y, z, action, block }]. *)
Record Instruction `{JsNumber} := {
  x : num;
  y : num;
  z : num;
  action : string;
  block : string
  }.

(** The parsed plan file: an object, or any JSON value other than [null],
  on which reading the [instructions] key gives [undefined] when the key is
  absent. *)
Record Plan `{JsNumber} := { instructions : option (list Instruction) }.

(** What [JSON.parse(fs.readFileSync(file))] does with a file that exists:
  it throws on text that is not JSON, returns [null] on the text [null], on
  which reading a key throws in turn, and returns the plan otherwise. *)
Inductive FileContent `{JsNumber} : Type :=
  | NotJson
  | JsonNull
  | Json (plan : Plan).

(** An entity as [bot.nearestEntity] returns it.  The object is live; the
  [position] here is the one the script reads from it (line 81). *)
Record Entity `{JsNumber} := { username : string; position : Vec3.t }.

(** The server side of a run in which the bot connects, spawns and stays
  connected.
  [botPosition w count] is [bot.entity.position] as the [count]-th
  instruction reads it (line 98): the server moves the bot between reads,
  so each read has its own answer. *)
Record World `{JsNumber} := {
  nearestPlayer : option Entity;
  botPosition : nat -> Vec3.t
  }.

(** An entry of [process.argv]: [undefined] past the end, and falsy when it
  is [undefined] or the empty string. *)
Definition truthy (arg : option string) : bool :=
  match arg with
  | Some s => negb (s =? "")%string
  | None => false
  end.

(** Coercion of an argument to a string, as template literals and
  [parseFloat] do. *)
Definition stringOf (arg : option string) : string := default "undefined" arg.

(** ** The script *)

Section Carpenter.
Context `{JsNumber}.

(** [__dirname] and [path.join] of the Node runtime. *)
Variable dirname : string.
Variable path_join : list string -> string.

(** The bot calls and console calls, one action each. *)
Definition console_log (line : string) : Script.t unit := Script.emit (ConsoleLog line).
Definition console_error (line : string) : Script.t unit := Script.emit (ConsoleError line).
Definition chat (message : string) : Script.t unit := Script.emit (Chat message).
Definition waitForTicks (ticks : nat) : Script.t unit := Script.emit (WaitForTicks ticks).
Definition startFlying : Script.t unit := Script.emit StartFlying.
Definition lookAt (point : Vec3.t) : Script.t unit := Script.emit (LookAt point).
Definition quit : Script.t unit := Script.emit Quit.
Definition createBot (host : string) (port : Z) (name : string) : Script.t unit :=
  Script.emit (CreateBot host port name).
Definition process_exit {A} (code : Z) : Script.t A :=
  Script.emit (ProcessExit code) ;; Script.halt.

(** [`/tp @s ${x} ${y} ${z}`] *)
Definition tpCommand (px py pz : num) : string :=
  "/tp @s " +:+ numToString px +:+ " " +:+ numToString py +:+ " " +:+ numToString pz.

(** Line 109: [`/setblock ${targetPos.x} ${targetPos.y} ${targetPos.z} ${block} replace`] *)
Definition setblockCommand (targetPos : Vec3.t) (block : string) : string :=
  "/setblock " +:+ numToString (Vec3.x targetPos) +:+ " "
               +:+ numToString (Vec3.y targetPos) +:+ " "
               +:+ numToString (Vec3.z targetPos) +:+ " " +:+ block +:+ " replace".

(** Line 114: [`[${count}/${total}] ${cmd}`] *)
Definition progressLine (count total : nat) (cmd : string) : string :=
  "[" +:+ pretty count +:+ "/" +:+ pretty total +:+ "] " +:+ cmd.

(** Line 96: [action === 'setblock' || action === 'place'] *)
Definition isPlacement (instr : Instruction) : bool :=
  (action instr =? "setblock")%string || (action instr =? "place")%string.

(** Line 113: [count % 5 === 0 || count === 1 || count === total] *)
Definition logsProgress (count total : nat) : bool :=
  (count mod 5 =? 0)%nat || (count =? 1)%nat || (count =? total)%nat.

(** Lines 55 to 84: the origin, or [None] where the script returns early. *)
Definition resolveOrigin (w : World) (argX argY argZ : option string)
  : Script.t (option Vec3.t) :=
  if truthy argX && truthy argY && truthy argZ then
    let origin := Vec3.make (parseFloat (stringOf argX)) (parseFloat (stringOf argY))
                            (parseFloat (stringOf argZ)) in
    console_log ("Using provided origin: " +:+ Vec3.toString origin) ;;
    chat ("指定座標を作業原点とします: " +:+ Vec3.toString origin) ;;
    chat (tpCommand (Vec3.x origin) (add (Vec3.y origin) (lit 5)) (Vec3.z origin)) ;;
    waitForTicks 20 ;;
    startFlying ;;
    waitForTicks 40 ;;
    Script.ret (Some origin)
  else
    match nearestPlayer w with
    | None =>
        console_log "No player found and no coordinates provided." ;;
        chat "座標指定がなく、プレイヤーも見つかりません。" ;;
        Script.ret None
    | Some target =>
        console_log ("Syncing origin with player: " +:+ username target) ;;
        chat ("/tp @s " +:+ username target) ;;
        waitForTicks 40 ;;
        startFlying ;;
        let origin := Vec3.floored (position target) in
        console_log ("Origin set to: " +:+ Vec3.toString origin) ;;
        chat ("プレイヤー位置を原点としました: " +:+ Vec3.toString origin) ;;
        Script.ret (Some origin)
    end.

(** Lines 91 to 119: the body of the loop, with [count] already
    incremented. *)
Definition loopBody (w : World) (origin : Vec3.t) (total count : nat)
    (instr : Instruction) : Script.t unit :=
  let targetPos := Vec3.offset origin (x instr) (y instr) (z instr) in
  (if isPlacement instr then
     (if gtb (Vec3.distanceTo (botPosition w count) targetPos) (lit 4) then
        let movePos := Vec3.offset targetPos (lit 0) (lit 2) (lit 0) in
        chat (tpCommand (Vec3.x movePos) (Vec3.y movePos) (Vec3.z movePos)) ;;
        waitForTicks 20
      else Script.ret tt) ;;
     lookAt targetPos ;;
     let cmd := setblockCommand targetPos (block instr) in
     chat cmd ;;
     (if logsProgress count total then console_log (progressLine count total cmd)
      else Script.ret tt)
   else Script.ret tt) ;;
  waitForTicks 5.

(** Lines 89 to 120: [for (const instr of instructions)], [count] being
    the number of instructions already taken. *)
Fixpoint forOf (w : World) (origin : Vec3.t) (total count : nat)
    (rest : list Instruction) : Script.t unit :=
  match rest with
  | [] => Script.ret tt
  | instr :: rest =>
      let count := S count in
      loopBody w origin total count instr ;;
      forOf w origin total count rest
  end.

(** Lines 49 to 127. *)
Definition executePlan (w : World) (argX argY argZ : option string)
    (instructions : list Instruction) : Script.t unit :=
  chat "作業を開始します...🔨" ;;
  resolved <- resolveOrigin w argX argY argZ ;;
  match resolved with
  | None => Script.ret tt
  | Some origin =>
      let total := length instructions in
      forOf w origin total 0 instructions ;;
      waitForTicks 4 ;;
      chat "装飾完了しました！✨" ;;
      quit
  end.

(** Lines 20 to 22: the plan file named by the command line. *)
Definition projectDir (argv : list string) : string :=
  path_join [dirname; ".."; "projects"; stringOf (argv !! 2%nat)].
Definition targetFileName (argv : list string) : string :=
  let argFile := argv !! 6%nat in
  if truthy argFile then stringOf argFile else "decoration.json".
Definition decorationFile (argv : list string) : string :=
  path_join [projectDir argv; targetFileName argv].

(** Lines 7 to 47: the top level of the script, run with the command line
    [argv] over the files [fs], against a server [w] on which the bot
    spawns. *)
Definition main (argv : list string) (fs : gmap string FileContent) (w : World)
  : Script.t unit :=
  let projectName := argv !! 2%nat in
  let argX := argv !! 3%nat in
  let argY := argv !! 4%nat in
  let argZ := argv !! 5%nat in
  if negb (truthy projectName) then
    console_error "Please provide a project name argument." ;;
    process_exit 1
  else
    match fs !! decorationFile argv with
    | None =>
        console_error ("File not found: " +:+ decorationFile argv) ;;
        process_exit 1
    | Some content =>
        console_log ("Loading plan from: " +:+ targetFileName argv +:+ " for project: "
                       +:+ stringOf projectName) ;;
        plan <- match content with
                | NotJson => Script.emit (Uncaught "SyntaxError") ;; Script.halt
                | JsonNull => Script.emit (Uncaught "TypeError") ;; Script.halt
                | Json plan => Script.ret plan
                end ;;
        let instructions := default [] (instructions plan) in
        console_log ("Found " +:+ pretty (length instructions) +:+ " instructions.") ;;
        createBot "localhost" 25565 "AI_Carpenter" ;;
        console_log "🤖 AI Carpenter joined! Ready to work." ;;
        chat "/gamemode creative" ;;
        waitForTicks 20 ;;
        executePlan w argX argY argZ instructions
    end.
End Carpenter.

(** ** A number system to run the script on

  Decimal fixed-point numbers with three fractional digits, and a
  not-a-number value.  Sums, floors and comparisons are exact; a product is
  rounded down and a square root up to the next thousandth, so that a root
  exceeds a fixed-point bound exactly when the real root does.  [parseFloat]
  reads plain decimal notation (sign, digits, fraction), and printing drops
  trailing zeros, as JavaScript does on such values. *)

Module Decimal.
Inductive t := NaN | Fix (thousandths : Z).

Definition lift2 (f : Z -> Z -> Z) (a b : t) : t :=
  match a, b with
  | Fix a, Fix b => Fix (f a b)
  | _, _ => NaN
  end.

Definition of_Z (n : Z) : t := Fix (1000 * n).
Definition plus : t -> t -> t := lift2 Z.add.
Definition minus : t -> t -> t := lift2 Z.sub.
Definition times : t -> t -> t := lift2 (fun a b => (a * b) / 1000)%Z.

Definition root (a : t) : t :=
  match a with
  | Fix a =>
      if (a <? 0)%Z then NaN
      else let n := (1000 * a)%Z in
           let r := Z.sqrt n in
           Fix (if (r * r =? n)%Z then r else r + 1)
  | NaN => NaN
  end.

Definition round_down (a : t) : t :=
  match a with
  | Fix a => Fix (1000 * (a / 1000))
  | NaN => NaN
  end.

Definition greater (a b : t) : bool :=
  match a, b with
  | Fix a, Fix b => (b <? a)%Z
  | _, _ => false
  end.

Definition at_most (a b : t) : bool :=
  match a, b with
  | Fix a, Fix b => (a <=? b)%Z
  | _, _ => false
  end.

Definition digit (c : ascii) : option Z :=
  let n := nat_of_ascii c in
  if (48 <=? n)%nat && (n <=? 57)%nat then Some (Z.of_nat (n - 48)) else None.

(** The digits at the head of [s]: their value after [acc], whether there
    was one, and what follows them. *)
Fixpoint digits (s : string) (acc : Z) (seen : bool) : Z * bool * string :=
  match s with
  | String c rest =>
      match digit c with
      | Some d => digits rest (10 * acc + d)%Z true
      | None => (acc, seen, s)
      end
  | EmptyString => (acc, seen, s)
  end.

(** The fraction digits at the head of [s], in thousandths; digits past
    the third are dropped. *)
Fixpoint fraction (s : string) (place acc : Z) (seen : bool) : Z * bool :=
  match s with
  | String c rest =>
      match digit c with
      | Some d => fraction rest (place / 10)%Z (acc + d * place)%Z true
      | None => (acc, seen)
      end
  | EmptyString => (acc, seen)
  end.

Fixpoint skip_spaces (s : string) : string :=
  match s with
  | String " " rest => skip_spaces rest
  | _ => s
  end.

Definition unsigned (s : string) : option Z :=
  let '(whole, seen, rest) := digits s 0 false in
  let '(part, seen') :=
    match rest with
    | String "." rest => fraction rest 100 0 false
    | _ => (0%Z, false)
    end in
  if seen || seen' then Some (1000 * whole + part)%Z else None.

Definition parse (s : string) : t :=
  match skip_spaces s with
  | String "-" rest => from_option (fun v => Fix (- v)) NaN (unsigned rest)
  | String "+" rest => from_option Fix NaN (unsigned rest)
  | rest => from_option Fix NaN (unsigned rest)
  end.

Definition print (a : t) : string :=
  match a with
  | NaN => "NaN"
  | Fix v =>
      let m := Z.abs v in
      let part := (m mod 1000)%Z in
      let d1 := pretty (part / 100)%Z in
      let d2 := pretty (part / 10 mod 10)%Z in
      let d3 := pretty (part mod 10)%Z in
      (if (v <? 0)%Z then "-" else "") +:+ pretty (m / 1000)%Z +:+
      (if (part =? 0)%Z then ""
       else if (part mod 10 =? 0)%Z then
              if (part mod 100 =? 0)%Z then "." +:+ d1 else "." +:+ d1 +:+ d2
            else "." +:+ d1 +:+ d2 +:+ d3)
  end.

Lemma at_most_not_greater a b : at_most a b = true -> greater a b = false.
Proof.
  destruct a as [|a], b as [|b]; simpl; try done.
  intros ?%Z.leb_le. apply Z.ltb_ge. lia.
Qed.

#[export] Instance number : JsNumber := {|
    num := t;
    lit := of_Z;
    add := plus;
    sub := minus;
    mul := times;
    sqrt := root;
    floor := round_down;
    parseFloat := parse;
    numToString := print;
    gtb := greater;
    leb := at_most;
    leb_not_gtb := at_most_not_greater
  |}.
End Decimal.

(** ** What is observed of a run *)

Section Observations.
Context `{JsNumber}.

(** [s.startsWith(p)] *)
Fixpoint startsWith (s p : string) {struct p} : bool :=
  match p with
  | EmptyString => true
  | String a p' =>
      match s with
      | String b s' => Ascii.eqb a b && startsWith s' p'
      | EmptyString => false
      end
  end.

(** The placement commands of a run: the chat messages that are
    [/setblock] commands. *)
Definition placementOf (e : Event) : option string :=
  match e with
  | Chat message => if startsWith message "/setblock " then Some message else None
  | _ => None
  end.
Definition placementCommands (tr : list Event) : list string := omap placementOf tr.

(** The reposition commands of a run: the chat messages that teleport the
    bot. *)
Definition repositionOf (e : Event) : option string :=
  match e with
  | Chat message => if startsWith message "/tp @s " then Some message else None
  | _ => None
  end.
Definition repositionCommands (tr : list Event) : list string := omap repositionOf tr.

(** The lines written by [console.log]. *)
Definition logOf (e : Event) : option string :=
  match e with
  | ConsoleLog line => Some line
  | _ => None
  end.
Definition consoleLines (tr : list Event) : list string := omap logOf tr.

(** The points the bot is turned to. *)
Definition lookOf (e : Event) : option Vec3.t :=
  match e with
  | LookAt point => Some point
  | _ => None
  end.
Definition lookTargets (tr : list Event) : list Vec3.t := omap lookOf tr.

(** The exit code the script asks for, if it ends the process itself. *)
Definition exitOf (e : Event) : option Z :=
  match e with
  | ProcessExit code => Some code
  | Uncaught _ => Some 1%Z
  | _ => None
  end.
Definition requestedExit (tr : list Event) : option Z := head (omap exitOf tr).

(** Node keeps a process alive while a connection is open.  After a run
    the process has exited with the code it asked for, or with 0 once the
    bot has quit or was never created, and is still running otherwise. *)
Inductive ProcessStatus := Exited (code : Z) | Running.

Fixpoint statusFrom (connected : bool) (tr : list Event) : ProcessStatus :=
  match tr with
  | [] => if connected then Running else Exited 0
  | ProcessExit code :: _ => Exited code
  | Uncaught _ :: _ => Exited 1
  | CreateBot _ _ _ :: tr => statusFrom true tr
  | Quit :: tr => statusFrom false tr
  | _ :: tr => statusFrom connected tr
  end.
Definition processStatus (tr : list Event) : ProcessStatus := statusFrom false tr.

Definition connects (e : Event) : bool :=
  match e with
  | CreateBot _ _ _ => true
  | _ => false
  end.

(** Line 55: whether the run takes its origin from the command line. *)
Definition explicitOrigin (argX argY argZ : option string) : bool :=
  truthy argX && truthy argY && truthy argZ.
End Observations.

(** ** Sample runs

  Plans, files and servers on which the statements below are exercised,
  over the decimal numbers. *)

Module Demo.
Import Decimal.

Definition dirname : string := "/app/AI_Carpenter_Bot".

(** [path.join] on absolute POSIX paths: the parts joined with [/], then
    cut into segments, with empty and [.] segments dropped and each [..]
    taking back the segment before it. *)
Fixpoint segments (path current : string) : list string :=
  match path with
  | EmptyString => [current]
  | String c rest =>
      if Ascii.eqb c "/" then current :: segments rest ""
      else segments rest (current +:+ String c "")
  end.

Definition resolve (kept : list string) (segment : string) : list string :=
  if (segment =? "")%string || (segment =? ".")%string then kept
  else if (segment =? "..")%string then tail kept
  else segment :: kept.

Definition join (parts : list string) : string :=
  "/" +:+ String.concat "/" (rev (fold_left resolve (segments (String.concat "/" parts) "") [])).

Definition vec (px py pz : string) : Vec3.t :=
  Vec3.make (parseFloat px) (parseFloat py) (parseFloat pz).

Definition entry (dx dy dz : Z) (act blk : string) : Instruction :=
  {| x := lit dx; y := lit dy; z := lit dz; action := act; block := blk |}.

(** Scenario A of the specification. *)
Definition single : list Instruction := [entry 0 0 0 "setblock" "stone"].

Definition cabin : list Instruction :=
  [entry 0 0 0 "setblock" "stone";
   entry 1 0 0 "annotation" "corner";
   entry 9 0 0 "place" "oak_planks[axis=y]"].

(** Twelve placements in a row. *)
Definition row : list Instruction :=
  map (fun k => entry (Z.of_nat k) 0 0 "setblock" "stone") (seq 0 12).

(** The same row with its fifth entry turned into a note. *)
Definition noted_row : list Instruction :=
  <[4%nat := entry 4 0 0 "annotation" "stone"]> row.

Definition file (name : string) : string :=
  join [join [dirname; ".."; "projects"; "demo"]; name].

Definition fs : gmap string FileContent :=
  {[ file "decoration.json" := Json {| instructions := Some cabin |};
     file "empty.json" := Json {| instructions := Some [] |};
     file "bare.json" := Json {| instructions := None |};
     file "broken.json" := NotJson;
     file "null.json" := JsonNull ]}.

(** A server with nobody on it, on which the bot hovers at (10.5, 69, 10)
    whatever it is told. *)
Definition deserted : World :=
  {| nearestPlayer := None; botPosition := fun _ => vec "10.5" "69" "10" |}.

(** A server with one player, standing off the block grid; the bot is
    next to that player throughout. *)
Definition steve : Entity := {| username := "Steve"; position := vec "10.5" "64.25" "-3.5" |}.
Definition inhabited : World :=
  {| nearestPlayer := Some steve; botPosition := fun _ => vec "10.5" "64.25" "-3.5" |}.

(** A server that carries out every teleport of a run over [row] from the
    origin (10.5, 64, 10): five above the origin at first, then two above
    the last target the bot was sent to. *)
Definition obedient : World :=
  {| nearestPlayer := None;
     botPosition := fun count =>
       if (count <=? 1)%nat then vec "10.5" "69" "10"
       else if (count <=? 5)%nat then vec "10.5" "66" "10"
       else if (count <=? 9)%nat then vec "14.5" "66" "10"
       else vec "18.5" "66" "10" |}.

(** A server on which the bot is always two above the stone of [row] it is
    about to place, built from (10.5, 64, 10). *)
Definition escort : World :=
  {| nearestPlayer := None;
     botPosition := fun count =>
       Vec3.make (add (parseFloat "10.5") (lit (Z.of_nat count - 1))) (parseFloat "66")
                 (parseFloat "10") |}.

(** A plan of notes only. *)
Definition notes : list Instruction :=
  [entry 0 0 0 "annotation" "north wall"; entry 0 1 0 "comment" "roof"; entry 0 2 0 "" ""].
End Demo.

(** ** Measures of a run *)

Section Measures.
Context `{JsNumber}.

(** The ticks a run spends in [bot.waitForTicks]. *)
Definition ticksOf (e : Event) : nat :=
  match e with
  | WaitForTicks ticks => ticks
  | _ => 0
  end.
Definition ticksWaited (tr : list Event) : nat := sum_list_with ticksOf tr.

(** Whether some chat message of a run follows another with no wait
  between the two; [pending] tells that a message was sent since the last
  wait. *)
Fixpoint crowded (pending : bool) (tr : list Event) : bool :=
  match tr with
  | [] => false
  | Chat _ :: tr => pending || crowded true tr
  | WaitForTicks _ :: tr => crowded false tr
  | _ :: tr => crowded pending tr
  end.

(** Whether a message is pending at the end of a run. *)
Fixpoint pendingAfter (pending : bool) (tr : list Event) : bool :=
  match tr with
  | [] => pending
  | Chat _ :: tr => pendingAfter true tr
  | WaitForTicks _ :: tr => pendingAfter false tr
  | _ :: tr => pendingAfter pending tr
  end.

(** The turns and the placements of a run, in the order they happen. *)
Definition workOf (e : Event) : option (Vec3.t + string) :=
  match e with
  | LookAt point => Some (inl point)
  | Chat message => if startsWith message "/setblock " then Some (inr message) else None
  | _ => None
  end.
Definition work (tr : list Event) : list (Vec3.t + string) := omap workOf tr.

End Measures.

(** ** Sequencing lemmas *)

Section ScriptFacts.
Context `{JsNumber}.

Lemma bind_trace {A B} (c : Script.t A) (k : A -> Script.t B) a :
  Script.result c = Some a ->
  Script.trace (Script.bind c k) = Script.trace c ++ Script.trace (k a).
Proof.
  destruct c as [tr r]. simpl. intros ->. simpl. by destruct (k a).
Qed.

Lemma bind_result {A B} (c : Script.t A) (k : A -> Script.t B) a :
  Script.result c = Some a ->
  Script.result (Script.bind c k) = Script.result (k a).
Proof.
  destruct c as [tr r]. simpl. intros ->. simpl. by destruct (k a).
Qed.

Lemma placementCommands_app tr1 tr2 :
  placementCommands (tr1 ++ tr2) = placementCommands tr1 ++ placementCommands tr2.
Proof. apply omap_app. Qed.

Lemma lookTargets_app tr1 tr2 :
  lookTargets (tr1 ++ tr2) = lookTargets tr1 ++ lookTargets tr2.
Proof. apply omap_app. Qed.

Lemma consoleLines_app tr1 tr2 :
  consoleLines (tr1 ++ tr2) = consoleLines tr1 ++ consoleLines tr2.
Proof. apply omap_app. Qed.
End ScriptFacts.

(** ** The loop, one instruction at a time *)

(** A pass through the loop body branches on the action, on the distance
  test and on the progress test; once they are decided its actions are a
  list that can be read off. *)
Ltac pass_cases instr :=
  destruct (isPlacement instr); [|reflexivity];
  destruct (gtb _ _), (logsProgress _ _); reflexivity.

Section LoopFacts.
Context `{JsNumber}.
Variables (w : World) (origin : Vec3.t) (total : nat).

Lemma loopBody_result count instr :
  Script.result (loopBody w origin total count instr) = Some tt.
Proof.
  unfold loopBody. pass_cases instr.
Qed.

(** The actions of one pass through the loop body. *)
Lemma loopBody_trace count instr :
  let targetPos := Vec3.offset origin (x instr) (y instr) (z instr) in
  let movePos := Vec3.offset targetPos (lit 0) (lit 2) (lit 0) in
  let cmd := setblockCommand targetPos (block instr) in
  Script.trace (loopBody w origin total count instr) =
  (if isPlacement instr then
     (if gtb (Vec3.distanceTo (botPosition w count) targetPos) (lit 4)
      then [Chat (tpCommand (Vec3.x movePos) (Vec3.y movePos) (Vec3.z movePos));
            WaitForTicks 20]
      else []) ++
     [LookAt targetPos; Chat cmd] ++
     (if logsProgress count total then [ConsoleLog (progressLine count total cmd)]
      else [])
   else []) ++ [WaitForTicks 5].
Proof.
  unfold loopBody. pass_cases instr.
Qed.

Lemma forOf_result count rest :
  Script.result (forOf w origin total count rest) = Some tt.
Proof.
  revert count. induction rest as [|instr rest IH]; intros count; [done|].
  simpl. rewrite (bind_result _ _ tt) by apply loopBody_result. apply IH.
Qed.

Lemma forOf_cons count instr rest :
  Script.trace (forOf w origin total count (instr :: rest)) =
  Script.trace (loopBody w origin total (S count) instr) ++
  Script.trace (forOf w origin total (S count) rest).
Proof.
  simpl.
  apply (bind_trace _ (fun _ => forOf w origin total (S count) rest) tt), loopBody_result.
Qed.

Lemma forOf_app count l1 l2 :
  Script.trace (forOf w origin total count (l1 ++ l2)) =
  Script.trace (forOf w origin total count l1) ++
  Script.trace (forOf w origin total (count + length l1) l2).
Proof.
  revert count. induction l1 as [|instr l1 IH]; intros count.
  - simpl. by rewrite Nat.add_0_r.
  - rewrite <- app_comm_cons, !forOf_cons, IH. simpl length.
    rewrite <- app_assoc. by replace (S count + length l1) with (count + S (length l1)) by lia.
Qed.

(** The run of the loop splits around the pass for any one instruction. *)
Lemma forOf_lookup count rest k instr :
  rest !! k = Some instr ->
  Script.trace (forOf w origin total count rest) =
  Script.trace (forOf w origin total count (take k rest)) ++
  Script.trace (loopBody w origin total (S (count + k)) instr) ++
  Script.trace (forOf w origin total (S (count + k)) (drop (S k) rest)).
Proof.
  intros Hk.
  rewrite <- (take_drop_middle rest k instr Hk) at 1.
  rewrite forOf_app, forOf_cons.
  assert (length (take k rest) = k) as ->; [|done].
  rewrite length_take. apply lookup_lt_Some in Hk. lia.
Qed.

(** The placement commands of one pass. *)
Lemma placementCommands_loopBody count instr :
  placementCommands (Script.trace (loopBody w origin total count instr)) =
  if isPlacement instr
  then [setblockCommand (Vec3.offset origin (x instr) (y instr) (z instr)) (block instr)]
  else [].
Proof.
  rewrite loopBody_trace. pass_cases instr.
Qed.

Lemma placementCommands_forOf count rest :
  placementCommands (Script.trace (forOf w origin total count rest)) =
  map (fun instr =>
         setblockCommand (Vec3.offset origin (x instr) (y instr) (z instr)) (block instr))
      (List.filter isPlacement rest).
Proof.
  revert count. induction rest as [|instr rest IH]; intros count; [done|].
  rewrite forOf_cons, placementCommands_app, placementCommands_loopBody, IH.
  simpl. by destruct (isPlacement instr).
Qed.

(** The progress line of one pass. *)
Lemma consoleLines_loopBody count instr :
  consoleLines (Script.trace (loopBody w origin total count instr)) =
  if isPlacement instr && logsProgress count total
  then [progressLine count total
          (setblockCommand (Vec3.offset origin (x instr) (y instr) (z instr)) (block instr))]
  else [].
Proof.
  rewrite loopBody_trace. pass_cases instr.
Qed.

(** The point one pass turns the bot to. *)
Lemma lookTargets_loopBody count instr :
  lookTargets (Script.trace (loopBody w origin total count instr)) =
  if isPlacement instr then [Vec3.offset origin (x instr) (y instr) (z instr)] else [].
Proof.
  rewrite loopBody_trace. pass_cases instr.
Qed.

Lemma lookTargets_forOf count rest :
  lookTargets (Script.trace (forOf w origin total count rest)) =
  map (fun instr => Vec3.offset origin (x instr) (y instr) (z instr))
      (List.filter isPlacement rest).
Proof.
  revert count. induction rest as [|instr rest IH]; intros count; [done|].
  rewrite forOf_cons, lookTargets_app, lookTargets_loopBody, IH.
  simpl. by destruct (isPlacement instr).
Qed.
End LoopFacts.

(** ** Origin resolution and the shape of a run *)

Section RunFacts.
Context `{JsNumber}.
Variable w : World.

Lemma resolveOrigin_explicit argX argY argZ :
  explicitOrigin argX argY argZ = true ->
  let origin := Vec3.make (parseFloat (stringOf argX)) (parseFloat (stringOf argY))
                          (parseFloat (stringOf argZ)) in
  resolveOrigin w argX argY argZ =
  ([ConsoleLog ("Using provided origin: " +:+ Vec3.toString origin);
    Chat ("指定座標を作業原点とします: " +:+ Vec3.toString origin);
    Chat (tpCommand (Vec3.x origin) (add (Vec3.y origin) (lit 5)) (Vec3.z origin));
    WaitForTicks 20; StartFlying; WaitForTicks 40],
   Some (Some origin)).
Proof. unfold explicitOrigin, resolveOrigin. by intros ->. Qed.

Lemma resolveOrigin_derived argX argY argZ target :
  explicitOrigin argX argY argZ = false ->
  nearestPlayer w = Some target ->
  let origin := Vec3.floored (position target) in
  resolveOrigin w argX argY argZ =
  ([ConsoleLog ("Syncing origin with player: " +:+ username target);
    Chat ("/tp @s " +:+ username target);
    WaitForTicks 40; StartFlying;
    ConsoleLog ("Origin set to: " +:+ Vec3.toString origin);
    Chat ("プレイヤー位置を原点としました: " +:+ Vec3.toString origin)],
   Some (Some origin)).
Proof. unfold explicitOrigin, resolveOrigin. by intros -> ->. Qed.

Lemma resolveOrigin_nobody argX argY argZ :
  explicitOrigin argX argY argZ = false ->
  nearestPlayer w = None ->
  resolveOrigin w argX argY argZ =
  ([ConsoleLog "No player found and no coordinates provided.";
    Chat "座標指定がなく、プレイヤーも見つかりません。"],
   Some None).
Proof. unfold explicitOrigin, resolveOrigin. by intros -> ->. Qed.

(** Origin resolution places nothing and turns the bot nowhere. *)
Lemma resolveOrigin_quiet argX argY argZ :
  placementCommands (Script.trace (resolveOrigin w argX argY argZ)) = [] /\
  lookTargets (Script.trace (resolveOrigin w argX argY argZ)) = [].
Proof.
  destruct (explicitOrigin argX argY argZ) eqn:He.
  - rewrite (resolveOrigin_explicit _ _ _ He). split; reflexivity.
  - destruct (nearestPlayer w) as [target|] eqn:Hp.
    + rewrite (resolveOrigin_derived _ _ _ _ He Hp). split; reflexivity.
    + rewrite (resolveOrigin_nobody _ _ _ He Hp). split; reflexivity.
Qed.

(** A run with an origin: the opening message, the resolution, the loop
    over the plan from that origin, and the closing three actions. *)
Lemma executePlan_resolved argX argY argZ instrs origin :
  Script.result (resolveOrigin w argX argY argZ) = Some (Some origin) ->
  executePlan w argX argY argZ instrs =
  (Chat "作業を開始します...🔨" ::
     Script.trace (resolveOrigin w argX argY argZ) ++
     Script.trace (forOf w origin (length instrs) 0 instrs) ++
     [WaitForTicks 4; Chat "装飾完了しました！✨"; Quit],
   Some tt).
Proof.
  intros Hr. unfold executePlan.
  pose proof (forOf_result w origin (length instrs) 0 instrs) as Hf.
  destruct (resolveOrigin w argX argY argZ) as [trR rR]; simpl in Hr; subst rR.
  cbn.
  destruct (forOf w origin (length instrs) 0 instrs) as [trF rF]; simpl in Hf; subst rF.
  cbn. reflexivity.
Qed.

(** A run without an origin stops where the resolution does. *)
Lemma executePlan_unresolved argX argY argZ instrs :
  Script.result (resolveOrigin w argX argY argZ) = Some None ->
  executePlan w argX argY argZ instrs =
  (Chat "作業を開始します...🔨" :: Script.trace (resolveOrigin w argX argY argZ), Some tt).
Proof.
  intros Hr. unfold executePlan.
  destruct (resolveOrigin w argX argY argZ) as [trR rR]; simpl in Hr; subst rR.
  simpl. by rewrite app_nil_r.
Qed.

(** The placement commands of a whole run are those of its loop. *)
Lemma placementCommands_executePlan argX argY argZ instrs origin :
  Script.result (resolveOrigin w argX argY argZ) = Some (Some origin) ->
  placementCommands (Script.trace (executePlan w argX argY argZ instrs)) =
  map (fun instr =>
         setblockCommand (Vec3.offset origin (x instr) (y instr) (z instr)) (block instr))
      (List.filter isPlacement instrs).
Proof.
  intros Hr. rewrite (executePlan_resolved _ _ _ _ _ Hr). simpl.
  rewrite !placementCommands_app, placementCommands_forOf.
  destruct (resolveOrigin_quiet argX argY argZ) as [-> _].
  simpl. apply app_nil_r.
Qed.

(** The points a whole run turns the bot to are those of its loop. *)
Lemma lookTargets_executePlan argX argY argZ instrs origin :
  Script.result (resolveOrigin w argX argY argZ) = Some (Some origin) ->
  lookTargets (Script.trace (executePlan w argX argY argZ instrs)) =
  map (fun instr => Vec3.offset origin (x instr) (y instr) (z instr))
      (List.filter isPlacement instrs).
Proof.
  intros Hr. rewrite (executePlan_resolved _ _ _ _ _ Hr). simpl.
  rewrite !lookTargets_app, lookTargets_forOf.
  destruct (resolveOrigin_quiet argX argY argZ) as [_ ->].
  simpl. apply app_nil_r.
Qed.
End RunFacts.

(** ** Placement commands *)

Lemma append_assoc (a b c : string) : (a +:+ b) +:+ c = a +:+ b +:+ c.
Proof.
  induction a as [|ch a IH]; [reflexivity|].
  change (String ch ((a +:+ b) +:+ c) = String ch (a +:+ b +:+ c)).
  by rewrite IH.
Qed.

Section Placement.
Context `{JsNumber}.

(** C1. Once the origin is resolved, the placement commands of a run are,
    in plan order, one [/setblock X Y Z block replace] for each instruction
    whose action is [setblock] or [place], with X, Y, Z the origin plus the
    instruction's offset and the block string unchanged; the other
    instructions add none. *)
Theorem placement_commands_follow_plan (w : World) (argX argY argZ : option string)
    (instrs : list Instruction) (origin : Vec3.t) :
  Script.result (resolveOrigin w argX argY argZ) = Some (Some origin) ->
  placementCommands (Script.trace (executePlan w argX argY argZ instrs)) =
  map (fun instr =>
         "/setblock " +:+ numToString (add (Vec3.x origin) (x instr)) +:+ " "
                      +:+ numToString (add (Vec3.y origin) (y instr)) +:+ " "
                      +:+ numToString (add (Vec3.z origin) (z instr)) +:+ " "
                      +:+ block instr +:+ " replace")
      (List.filter
         (fun instr => (action instr =? "setblock")%string || (action instr =? "place")%string)
         instrs).
Proof. intros Hr. exact (placementCommands_executePlan w _ _ _ instrs origin Hr). Qed.

(** C8. Two runs of one plan from one origin issue the same placement
    commands, whatever the two servers answer about players and about the
    bot's position (the script asks the server nothing else, and nothing
    about blocks); each of these commands ends in [replace]. *)
Theorem placement_commands_ignore_world (w1 w2 : World)
    (argX1 argY1 argZ1 argX2 argY2 argZ2 : option string)
    (instrs : list Instruction) (origin : Vec3.t) :
  Script.result (resolveOrigin w1 argX1 argY1 argZ1) = Some (Some origin) ->
  Script.result (resolveOrigin w2 argX2 argY2 argZ2) = Some (Some origin) ->
  placementCommands (Script.trace (executePlan w1 argX1 argY1 argZ1 instrs)) =
  placementCommands (Script.trace (executePlan w2 argX2 argY2 argZ2 instrs)) /\
  Forall (fun cmd => exists body, cmd = body +:+ " replace")
         (placementCommands (Script.trace (executePlan w1 argX1 argY1 argZ1 instrs))).
Proof.
  intros H1 H2.
  rewrite (placementCommands_executePlan w1 _ _ _ instrs origin H1).
  rewrite (placementCommands_executePlan w2 _ _ _ instrs origin H2).
  split; [done|].
  apply Forall_forall. intros cmd Hin.
  apply list_elem_of_In, in_map_iff in Hin as (instr & <- & _).
  unfold setblockCommand.
  eexists. rewrite <- !append_assoc. reflexivity.
Qed.
End Placement.

(** C1 on scenario A of the specification: origin (10, 64, 10) and one
  stone at offset zero. *)
Lemma placement_commands_follow_plan_scenario_A :
  placementCommands
    (Script.trace (executePlan Demo.deserted (Some "10") (Some "64") (Some "10") Demo.single)) =
  ["/setblock 10 64 10 stone replace"].
Proof.
  apply (placement_commands_follow_plan Demo.deserted (Some "10") (Some "64") (Some "10")
           Demo.single (Demo.vec "10" "64" "10")).
  reflexivity.
Defined.

(** C8 on the row of twelve stones, with one command line on two servers:
  one leaves the bot where it is, the other moves it at every teleport. *)
Lemma placement_commands_ignore_world_row :
  placementCommands
    (Script.trace (executePlan Demo.deserted (Some "10.5") (Some "64") (Some "10") Demo.row)) =
  placementCommands
    (Script.trace (executePlan Demo.obedient (Some "10.5") (Some "64") (Some "10") Demo.row)) /\
  Forall (fun cmd => exists body, cmd = body +:+ " replace")
    (placementCommands
       (Script.trace (executePlan Demo.deserted (Some "10.5") (Some "64") (Some "10") Demo.row))).
Proof.
  apply (placement_commands_ignore_world Demo.deserted Demo.obedient
           (Some "10.5") (Some "64") (Some "10") (Some "10.5") (Some "64") (Some "10")
           Demo.row (Demo.vec "10.5" "64" "10")); reflexivity.
Defined.

(** ** Repositioning *)

Section Reposition.
Context `{JsNumber}.

Lemma isPlacement_true instr :
  action instr = "setblock" \/ action instr = "place" -> isPlacement instr = true.
Proof.
  unfold isPlacement. intros [->| ->]; [done|].
  apply orb_true_r.
Qed.

(** C2. In a run of the loop, the pass for a [setblock] or [place]
    instruction starts by turning to the target and placing when the bot is
    at most 4 from the target, with no teleport; when the bot is farther
    than 4, the pass starts with one teleport to the point 2 above the
    target and a wait of 20 ticks, then turns and places.  Nothing else in
    the pass is a teleport or a placement. *)
Theorem reposition_only_when_far (w : World) (origin : Vec3.t)
    (instrs : list Instruction) (k : nat) (instr : Instruction) :
  instrs !! k = Some instr ->
  action instr = "setblock" \/ action instr = "place" ->
  let total := length instrs in
  let targetPos := Vec3.offset origin (x instr) (y instr) (z instr) in
  let distance := Vec3.distanceTo (botPosition w (S k)) targetPos in
  let pass := Script.trace (loopBody w origin total (S k) instr) in
  let place := setblockCommand targetPos (block instr) in
  let reposition :=
    "/tp @s " +:+ numToString (add (Vec3.x targetPos) (lit 0)) +:+ " "
              +:+ numToString (add (Vec3.y targetPos) (lit 2)) +:+ " "
              +:+ numToString (add (Vec3.z targetPos) (lit 0)) in
  Script.trace (forOf w origin total 0 instrs) =
    Script.trace (forOf w origin total 0 (take k instrs)) ++ pass ++
    Script.trace (forOf w origin total (S k) (drop (S k) instrs)) /\
  placementCommands pass = [place] /\
  (leb distance (lit 4) = true ->
     repositionCommands pass = [] /\
     exists rest, pass = LookAt targetPos :: Chat place :: rest) /\
  (gtb distance (lit 4) = true ->
     repositionCommands pass = [reposition] /\
     exists rest,
       pass = Chat reposition :: WaitForTicks 20 :: LookAt targetPos :: Chat place :: rest).
Proof.
  intros Hk Hact total targetPos distance pass place reposition.
  apply isPlacement_true in Hact.
  split; [exact (forOf_lookup w origin total 0 instrs k instr Hk)|].
  split.
  { subst pass. by rewrite placementCommands_loopBody, Hact. }
  subst pass. rewrite loopBody_trace, Hact.
  fold targetPos. fold distance. fold place.
  split.
  - intros Hle%leb_not_gtb. rewrite Hle.
    split; [|by eexists].
    by destruct (logsProgress (S k) total).
  - intros ->. split; [|by eexists].
    by destruct (logsProgress (S k) total).
Qed.
End Reposition.

(** C2 on a row of twelve stones from (10.5, 64, 10) on a server that
  performs the teleports: the second stone is within reach of the bot, the
  fifth is not. *)
Lemma reposition_only_when_far_row :
  let origin := Demo.vec "10.5" "64" "10" in
  repositionCommands
    (Script.trace (loopBody Demo.obedient origin 12 2 (Demo.entry 1 0 0 "setblock" "stone")))
    = [] /\
  repositionCommands
    (Script.trace (loopBody Demo.obedient origin 12 5 (Demo.entry 4 0 0 "setblock" "stone")))
    = ["/tp @s 14.5 66 10"].
Proof.
  intros origin. split.
  - destruct (reposition_only_when_far Demo.obedient origin Demo.row 1
                (Demo.entry 1 0 0 "setblock" "stone")) as (_ & _ & Hnear & _).
    + reflexivity.
    + left. reflexivity.
    + apply Hnear. reflexivity.
  - destruct (reposition_only_when_far Demo.obedient origin Demo.row 4
                (Demo.entry 4 0 0 "setblock" "stone")) as (_ & _ & _ & Hfar).
    + reflexivity.
    + left. reflexivity.
    + apply Hfar. reflexivity.
Defined.

(** ** Start-up, aborts and completion *)

Section Process.
Context `{JsNumber}.
Variable dirname : string.
Variable path_join : list string -> string.

Local Abbreviation script := (main dirname path_join).
Local Abbreviation planFile := (decorationFile dirname path_join).

(** With a project name and a plan file that parses, the script logs,
    connects, greets and hands over to [executePlan]. *)
Lemma main_reaches_executePlan argv fs w plan :
  truthy (argv !! 2%nat) = true ->
  fs !! planFile argv = Some (Json plan) ->
  let run := executePlan w (argv !! 3%nat) (argv !! 4%nat) (argv !! 5%nat)
               (default [] (instructions plan)) in
  script argv fs w =
  ([ConsoleLog ("Loading plan from: " +:+ targetFileName argv +:+ " for project: "
                  +:+ stringOf (argv !! 2%nat));
    ConsoleLog ("Found " +:+ pretty (length (default [] (instructions plan)))
                  +:+ " instructions.");
    CreateBot "localhost" 25565 "AI_Carpenter";
    ConsoleLog "🤖 AI Carpenter joined! Ready to work.";
    Chat "/gamemode creative";
    WaitForTicks 20] ++ Script.trace run,
   Script.result run).
Proof.
  intros Hp Hf run. subst run. unfold main. rewrite Hp, Hf.
  cbn -[executePlan]. by destruct (executePlan _ _ _ _ _) as [tr r].
Qed.

(** What the abort path does (lines 70 to 74). Without three coordinates
    and without a player, the run stops right after origin resolution: it
    logs the failure, says so in chat, issues no placement command, and asks
    for no exit code. *)
Theorem no_player_abort argv fs w plan :
  truthy (argv !! 2%nat) = true ->
  fs !! planFile argv = Some (Json plan) ->
  explicitOrigin (argv !! 3%nat) (argv !! 4%nat) (argv !! 5%nat) = false ->
  nearestPlayer w = None ->
  script argv fs w =
  ([ConsoleLog ("Loading plan from: " +:+ targetFileName argv +:+ " for project: "
                  +:+ stringOf (argv !! 2%nat));
    ConsoleLog ("Found " +:+ pretty (length (default [] (instructions plan)))
                  +:+ " instructions.");
    CreateBot "localhost" 25565 "AI_Carpenter";
    ConsoleLog "🤖 AI Carpenter joined! Ready to work.";
    Chat "/gamemode creative";
    WaitForTicks 20;
    Chat "作業を開始します...🔨";
    ConsoleLog "No player found and no coordinates provided.";
    Chat "座標指定がなく、プレイヤーも見つかりません。"],
   Some tt) /\
  placementCommands (Script.trace (script argv fs w)) = [] /\
  requestedExit (Script.trace (script argv fs w)) = None.
Proof.
  intros Hp Hf He Hn.
  rewrite (main_reaches_executePlan argv fs w plan Hp Hf).
  rewrite executePlan_unresolved; rewrite (resolveOrigin_nobody w _ _ _ He Hn); done.
Qed.

(** C4, as the script has it. A plan file that parses to a plan (any value
    but [null]) without an [instructions] key, or with an empty list, loads
    as the empty plan without any error; the run issues no placement
    command; and, once the origin is resolved, it ends with the final wait,
    the completion message and the disconnect, after which the process has
    exited with code 0. *)
Theorem empty_plan_completes argv fs w plan :
  truthy (argv !! 2%nat) = true ->
  fs !! planFile argv = Some (Json plan) ->
  instructions plan = None \/ instructions plan = Some [] ->
  let run := script argv fs w in
  default [] (instructions plan) = [] /\
  Script.result run = Some tt /\
  requestedExit (Script.trace run) = None /\
  ConsoleLog "Found 0 instructions." ∈ Script.trace run /\
  placementCommands (Script.trace run) = [] /\
  (explicitOrigin (argv !! 3%nat) (argv !! 4%nat) (argv !! 5%nat) = true \/
   is_Some (nearestPlayer w) ->
   (exists opening,
      Script.trace run =
      opening ++ [WaitForTicks 4; Chat "装飾完了しました！✨"; Quit]) /\
   processStatus (Script.trace run) = Exited 0).
Proof.
  intros Hp Hf Hempty run.
  assert (default [] (instructions plan) = []) as Hnil
    by (destruct Hempty as [-> | ->]; done).
  split; [done|]. subst run.
  set (opening_line := "Loading plan from: " +:+ targetFileName argv +:+ " for project: "
                         +:+ stringOf (argv !! 2%nat)).
  rewrite (main_reaches_executePlan argv fs w plan Hp Hf), Hnil.
  assert (forall opening : list Event,
            ConsoleLog "Found 0 instructions." ∈
              ConsoleLog opening_line :: ConsoleLog "Found 0 instructions." :: opening)
    as Hfound by (intros; apply list_elem_of_In; right; left; reflexivity).
  destruct (explicitOrigin (argv !! 3%nat) (argv !! 4%nat) (argv !! 5%nat)) eqn:He.
  - rewrite (executePlan_resolved w _ _ _ [] _
               (f_equal Script.result (resolveOrigin_explicit w _ _ _ He))).
    rewrite (resolveOrigin_explicit w _ _ _ He).
    split; [reflexivity|]. split; [reflexivity|]. split; [apply Hfound|].
    split; [reflexivity|]. intros _.
    split; [|reflexivity].
    by eexists [_; _; _; _; _; _; _; _; _; _; _; _; _].
  - destruct (nearestPlayer w) as [target|] eqn:Hn.
    + rewrite (executePlan_resolved w _ _ _ [] _
                 (f_equal Script.result (resolveOrigin_derived w _ _ _ _ He Hn))).
      rewrite (resolveOrigin_derived w _ _ _ _ He Hn).
      split; [reflexivity|]. split; [reflexivity|]. split; [apply Hfound|].
      split; [reflexivity|]. intros _.
      split; [|reflexivity].
      by eexists [_; _; _; _; _; _; _; _; _; _; _; _; _].
    + rewrite executePlan_unresolved; rewrite (resolveOrigin_nobody w _ _ _ He Hn);
        [|done].
      split; [reflexivity|]. split; [reflexivity|]. split; [apply Hfound|].
      split; [reflexivity|].
      intros [? | [? ?]]; done.
Qed.

(** C5. Without a project name the script writes its usage error and
    exits with code 1; with a project name but no plan file at the resolved
    path it writes that the file is missing and exits with code 1.  Either
    way it makes no bot, and so places nothing. *)
Theorem missing_input_is_fatal argv fs w :
  (truthy (argv !! 2%nat) = false ->
   script argv fs w =
   ([ConsoleError "Please provide a project name argument."; ProcessExit 1], None)) /\
  (truthy (argv !! 2%nat) = true ->
   fs !! planFile argv = None ->
   script argv fs w =
   ([ConsoleError ("File not found: " +:+ planFile argv); ProcessExit 1], None)) /\
  (truthy (argv !! 2%nat) = false \/ fs !! planFile argv = None ->
   existsb connects (Script.trace (script argv fs w)) = false /\
   placementCommands (Script.trace (script argv fs w)) = [] /\
   processStatus (Script.trace (script argv fs w)) = Exited 1).
Proof.
  assert (truthy (argv !! 2%nat) = false ->
          script argv fs w =
          ([ConsoleError "Please provide a project name argument."; ProcessExit 1], None))
    as Hname.
  { intros Hp. unfold main. by rewrite Hp. }
  assert (truthy (argv !! 2%nat) = true ->
          fs !! planFile argv = None ->
          script argv fs w =
          ([ConsoleError ("File not found: " +:+ planFile argv); ProcessExit 1], None))
    as Hfile.
  { intros Hp Hf. unfold main. by rewrite Hp, Hf. }
  split; [done|]. split; [done|].
  intros Hmissing.
  destruct (truthy (argv !! 2%nat)) eqn:Hp.
  - destruct Hmissing as [?|Hf]; [done|]. by rewrite (Hfile eq_refl Hf).
  - by rewrite (Hname eq_refl).
Qed.
End Process.

(** C3. The run on a deserted server, without coordinates: the abort path
  returns without the [bot.quit()] that the completion path ends on (line
  126) and without any [process.exit], so after the abort message the bot is
  still connected and keeps the process running; it has not exited with
  code 0. *)
Lemma no_player_abort_keeps_running :
  let argv := ["node"; "index.js"; "demo"] in
  let run := Script.trace (main Demo.dirname Demo.join argv Demo.fs Demo.deserted) in
  explicitOrigin (argv !! 3%nat) (argv !! 4%nat) (argv !! 5%nat) = false /\
  nearestPlayer Demo.deserted = None /\
  last run = Some (Chat "座標指定がなく、プレイヤーも見つかりません。") /\
  processStatus run = Running /\
  processStatus run <> Exited 0.
Proof.
  intros argv run.
  assert (processStatus run = Running) as Hstatus by reflexivity.
  split; [reflexivity|]. split; [reflexivity|]. split; [reflexivity|].
  split; [exact Hstatus|]. rewrite Hstatus. discriminate.
Qed.

(** The abort path on the same run. *)
Lemma no_player_abort_deserted :
  let argv := ["node"; "index.js"; "demo"] in
  let run := main Demo.dirname Demo.join argv Demo.fs Demo.deserted in
  run =
  ([ConsoleLog "Loading plan from: decoration.json for project: demo";
    ConsoleLog "Found 3 instructions.";
    CreateBot "localhost" 25565 "AI_Carpenter";
    ConsoleLog "🤖 AI Carpenter joined! Ready to work.";
    Chat "/gamemode creative";
    WaitForTicks 20;
    Chat "作業を開始します...🔨";
    ConsoleLog "No player found and no coordinates provided.";
    Chat "座標指定がなく、プレイヤーも見つかりません。"],
   Some tt) /\
  placementCommands (Script.trace run) = [] /\
  requestedExit (Script.trace run) = None.
Proof.
  apply (no_player_abort Demo.dirname Demo.join ["node"; "index.js"; "demo"] Demo.fs
           Demo.deserted {| instructions := Some Demo.cabin |}); reflexivity.
Defined.

(** The claim C4 as written fails twice.  A plan file without the
  [instructions] key, run without coordinates on a deserted server, places
  nothing but does not complete: the run ends on the abort message, without
  completion message or disconnect, the bot still connected.  And the file
  [null] parses and lacks the key, yet reading [plan.instructions] throws:
  the script ends there on a [TypeError], before any connection. *)
Lemma empty_plan_without_origin_aborts :
  let argv := ["node"; "index.js"; "demo"; ""; ""; ""; "bare.json"] in
  let run := Script.trace (main Demo.dirname Demo.join argv Demo.fs Demo.deserted) in
  Demo.fs !! decorationFile Demo.dirname Demo.join argv = Some (Json {| instructions := None |}) /\
  placementCommands run = [] /\
  last run = Some (Chat "座標指定がなく、プレイヤーも見つかりません。") /\
  processStatus run = Running /\
  main Demo.dirname Demo.join ["node"; "index.js"; "demo"; "10"; "64"; "10"; "null.json"]
    Demo.fs Demo.inhabited =
  ([ConsoleLog "Loading plan from: null.json for project: demo"; Uncaught "TypeError"], None).
Proof. repeat split; reflexivity. Qed.

(** C4 as amended, on a plan file without the [instructions] key, with typed
  coordinates. *)
Lemma empty_plan_completes_bare :
  let argv := ["node"; "index.js"; "demo"; "10"; "64"; "10"; "bare.json"] in
  let run := main Demo.dirname Demo.join argv Demo.fs Demo.deserted in
  Script.result run = Some tt /\
  placementCommands (Script.trace run) = [] /\
  last (Script.trace run) = Some Quit /\
  processStatus (Script.trace run) = Exited 0.
Proof.
  intros argv run.
  destruct (empty_plan_completes Demo.dirname Demo.join argv Demo.fs Demo.deserted
              {| instructions := None |})
    as (_ & Hresult & _ & _ & Hnone & Hdone).
  - reflexivity.
  - reflexivity.
  - left. reflexivity.
  - destruct Hdone as [_ Hexit]; [left; reflexivity|].
    split; [exact Hresult|]. split; [exact Hnone|]. split; [reflexivity|exact Hexit].
Defined.

(** C5 on a command line without a project, and on one naming a plan file
  that is not there. *)
Lemma missing_input_is_fatal_demo :
  main Demo.dirname Demo.join ["node"; "index.js"] Demo.fs Demo.inhabited =
  ([ConsoleError "Please provide a project name argument."; ProcessExit 1], None) /\
  main Demo.dirname Demo.join ["node"; "index.js"; "demo"; "10"; "64"; "10"; "absent.json"]
    Demo.fs Demo.inhabited =
  ([ConsoleError "File not found: /app/projects/demo/absent.json";
    ProcessExit 1], None).
Proof.
  split.
  - apply (missing_input_is_fatal Demo.dirname Demo.join ["node"; "index.js"]
             Demo.fs Demo.inhabited).
    reflexivity.
  - apply (missing_input_is_fatal Demo.dirname Demo.join
             ["node"; "index.js"; "demo"; "10"; "64"; "10"; "absent.json"]
             Demo.fs Demo.inhabited); reflexivity.
Defined.

(** ** Progress lines *)

Section Progress.
Context `{JsNumber}.

(** Among the counts 1 to 12 of a plan of twelve, the cadence test of
    line 113 holds at 1, 5, 10 and 12. *)
Lemma logsProgress_twelve k :
  (k < 12)%nat -> logsProgress (S k) 12 = bool_decide (S k ∈ [1; 5; 10; 12]%nat).
Proof.
  intros Hk. do 12 (destruct k as [|k]; [reflexivity|]). lia.
Qed.

(** C6, as the script has it. In the loop over a plan of twelve
    instructions, the pass for instruction number [count] writes a progress
    line exactly when [count] is 1, 5, 10 or 12 and the instruction is a
    [setblock] or [place]; the progress lines of the run are those of the
    placements among the first, fifth, tenth and twelfth instructions, in
    that order. *)
Theorem progress_lines_of_twelve (w : World) (origin : Vec3.t)
    (instrs : list Instruction) :
  length instrs = 12%nat ->
  let line count instr :=
    "[" +:+ pretty count +:+ "/12] " +:+
    setblockCommand (Vec3.offset origin (x instr) (y instr) (z instr)) (block instr) in
  (forall k instr,
     instrs !! k = Some instr ->
     consoleLines (Script.trace (loopBody w origin 12 (S k) instr)) =
     if bool_decide (S k ∈ [1; 5; 10; 12]%nat) && isPlacement instr
     then [line (S k) instr] else []) /\
  consoleLines (Script.trace (forOf w origin (length instrs) 0 instrs)) =
  omap (fun count =>
          instr ← instrs !! (count - 1)%nat;
          if isPlacement instr then Some (line count instr) else None)
       [1; 5; 10; 12]%nat.
Proof.
  intros Hlen line. split.
  - intros k instr Hk.
    rewrite consoleLines_loopBody, logsProgress_twelve
      by (apply lookup_lt_Some in Hk; lia).
    rewrite andb_comm.
    destruct (bool_decide _ && isPlacement instr); [|done].
    reflexivity.
  - rewrite Hlen.
    do 12 (destruct instrs as [|? instrs]; [done|]).
    destruct instrs; [clear Hlen|done].
    rewrite !forOf_cons, !consoleLines_app, !consoleLines_loopBody.
    change (forOf w origin 12 12 []) with (Script.ret (A:=unit) tt).
    unfold line, progressLine, logsProgress. simpl Nat.modulo. simpl Nat.eqb.
    simpl orb. rewrite !andb_false_r, !andb_true_r. simpl.
    repeat match goal with
           | |- context [isPlacement ?i] => destruct (isPlacement i)
           end; reflexivity.
Qed.
End Progress.

(** The claim C6 as written fails on a plan of twelve whose fifth entry is
  a note: the pass for that entry writes nothing, and the run has progress
  lines for 1, 10 and 12 only. *)
Lemma progress_skips_a_note :
  let origin := Demo.vec "10.5" "64" "10" in
  length Demo.noted_row = 12%nat /\
  Demo.noted_row !! 4%nat = Some (Demo.entry 4 0 0 "annotation" "stone") /\
  consoleLines
    (Script.trace (loopBody Demo.deserted origin 12 5 (Demo.entry 4 0 0 "annotation" "stone")))
    = [] /\
  consoleLines (Script.trace (forOf Demo.deserted origin 12 0 Demo.noted_row)) =
  ["[1/12] /setblock 10.5 64 10 stone replace";
   "[10/12] /setblock 19.5 64 10 stone replace";
   "[12/12] /setblock 21.5 64 10 stone replace"].
Proof. repeat split; reflexivity. Qed.

(** C6 as amended, on twelve stones in a row: all four lines are there. *)
Lemma progress_lines_of_twelve_row :
  consoleLines
    (Script.trace (forOf Demo.obedient (Demo.vec "10.5" "64" "10") (length Demo.row) 0 Demo.row))
  = ["[1/12] /setblock 10.5 64 10 stone replace";
     "[5/12] /setblock 14.5 64 10 stone replace";
     "[10/12] /setblock 19.5 64 10 stone replace";
     "[12/12] /setblock 21.5 64 10 stone replace"].
Proof.
  apply (progress_lines_of_twelve Demo.obedient (Demo.vec "10.5" "64" "10") Demo.row).
  reflexivity.
Defined.

(** ** The origin *)

Section Origin.
Context `{JsNumber}.

Lemma explicitOrigin_true argX argY argZ :
  explicitOrigin argX argY argZ = true <->
  exists sx sy sz,
    argX = Some sx /\ argY = Some sy /\ argZ = Some sz /\ sx <> "" /\ sy <> "" /\ sz <> "".
Proof.
  unfold explicitOrigin, truthy. split.
  - destruct argX as [sx|], argY as [sy|], argZ as [sz|]; try done;
      rewrite ?andb_false_r; try done.
    intros [[Hx Hy]%andb_true_iff Hz]%andb_true_iff.
    exists sx, sy, sz.
    apply negb_true_iff, String.eqb_neq in Hx, Hy, Hz. done.
  - intros (sx & sy & sz & -> & -> & -> & Hx & Hy & Hz).
    apply String.eqb_neq in Hx, Hy, Hz. by rewrite Hx, Hy, Hz.
Qed.

(** C7. With three coordinates on the command line the origin is the
    vector of their [parseFloat] values, whatever the strings hold and
    whoever is on the server; otherwise it is the floored position of the
    nearest player, if there is one.  A run resolves it once, before the
    loop, and every pass of the loop measures its target from that same
    vector. *)
Theorem origin_resolved_once (w : World) (argX argY argZ : option string)
    (instrs : list Instruction) :
  (truthy argX && truthy argY && truthy argZ = true ->
   Script.result (resolveOrigin w argX argY argZ) =
   Some (Some (Vec3.make (parseFloat (stringOf argX)) (parseFloat (stringOf argY))
                         (parseFloat (stringOf argZ))))) /\
  (truthy argX && truthy argY && truthy argZ = false ->
   Script.result (resolveOrigin w argX argY argZ) =
   Some ((fun target => Vec3.floored (position target)) <$> nearestPlayer w)) /\
  (forall origin,
     Script.result (resolveOrigin w argX argY argZ) = Some (Some origin) ->
     Script.trace (executePlan w argX argY argZ instrs) =
       Chat "作業を開始します...🔨" ::
       Script.trace (resolveOrigin w argX argY argZ) ++
       Script.trace (forOf w origin (length instrs) 0 instrs) ++
       [WaitForTicks 4; Chat "装飾完了しました！✨"; Quit] /\
     lookTargets (Script.trace (executePlan w argX argY argZ instrs)) =
       map (fun instr =>
              Vec3.make (add (Vec3.x origin) (x instr)) (add (Vec3.y origin) (y instr))
                        (add (Vec3.z origin) (z instr)))
           (List.filter isPlacement instrs)).
Proof.
  split; [|split].
  - intros He. by rewrite (resolveOrigin_explicit w _ _ _ He).
  - intros He. destruct (nearestPlayer w) as [target|] eqn:Hn.
    + by rewrite (resolveOrigin_derived w _ _ _ _ He Hn).
    + by rewrite (resolveOrigin_nobody w _ _ _ He Hn).
  - intros origin Hr. split.
    + by rewrite (executePlan_resolved w _ _ _ instrs origin Hr).
    + exact (lookTargets_executePlan w _ _ _ instrs origin Hr).
Qed.

(** A run that does not take the explicit origin is the run without any
    coordinates. *)
Lemma executePlan_without_coordinates (w : World) argX argY argZ instrs :
  explicitOrigin argX argY argZ = false ->
  executePlan w argX argY argZ instrs = executePlan w None None None instrs.
Proof.
  intros He. unfold executePlan, resolveOrigin.
  fold (explicitOrigin argX argY argZ). by rewrite He.
Qed.

(** With three coordinates, the placement commands and targets of a run
    come from the parsed values as they are. *)
Lemma explicit_run (w : World) argX argY argZ instrs :
  explicitOrigin argX argY argZ = true ->
  let origin := Vec3.make (parseFloat (stringOf argX)) (parseFloat (stringOf argY))
                          (parseFloat (stringOf argZ)) in
  placementCommands (Script.trace (executePlan w argX argY argZ instrs)) =
    map (fun instr =>
           setblockCommand (Vec3.offset origin (x instr) (y instr) (z instr)) (block instr))
        (List.filter isPlacement instrs) /\
  lookTargets (Script.trace (executePlan w argX argY argZ instrs)) =
    map (fun instr => Vec3.offset origin (x instr) (y instr) (z instr))
        (List.filter isPlacement instrs).
Proof.
  intros He origin.
  assert (Script.result (resolveOrigin w argX argY argZ) = Some (Some origin)) as Hr
    by by rewrite (resolveOrigin_explicit w _ _ _ He).
  split.
  - exact (placementCommands_executePlan w _ _ _ instrs origin Hr).
  - exact (lookTargets_executePlan w _ _ _ instrs origin Hr).
Qed.
End Origin.

(** C7 on both strategies: coordinates as typed, with a fraction and a
  sign, against a player's position floored. *)
Lemma origin_resolved_once_demo :
  Script.result (resolveOrigin Demo.inhabited (Some "10.5") (Some "64.25") (Some "-3.5")) =
    Some (Some (Demo.vec "10.5" "64.25" "-3.5")) /\
  Script.result (resolveOrigin Demo.inhabited (Some "10.5") (Some "64.25") None) =
    Some (Some (Demo.vec "10" "64" "-4")) /\
  lookTargets (Script.trace (executePlan Demo.inhabited None None None Demo.cabin)) =
    [Demo.vec "10" "64" "-4"; Demo.vec "19" "64" "-4"].
Proof.
  split; [|split].
  - apply (origin_resolved_once Demo.inhabited (Some "10.5") (Some "64.25") (Some "-3.5") []).
    reflexivity.
  - apply (origin_resolved_once Demo.inhabited (Some "10.5") (Some "64.25") None []).
    reflexivity.
  - destruct (origin_resolved_once Demo.inhabited None None None Demo.cabin)
      as (_ & _ & Hloop).
    destruct (Hloop (Demo.vec "10" "64" "-4")) as [_ Hlook]; [reflexivity|exact Hlook].
Defined.

(** ** Partial and fractional coordinates *)

Section Coordinates.
Context `{JsNumber}.
Variable dirname : string.
Variable path_join : list string -> string.

Local Abbreviation script := (main dirname path_join).

(** C9. Origin resolution announces a provided origin only when all three
    coordinate arguments are present and non-empty.  Short of that it takes
    the derived strategy, whatever coordinates were given: it follows the
    nearest player, teleports to that player and takes the floored position
    as the origin, or gives up when nobody is there; nothing it logs or says
    mentions the coordinates.  The run is then, action for action, the run
    without any coordinates; so is the whole script when one or two
    coordinates follow the project name. *)
Theorem partial_coordinates_ignored (w : World) :
  (forall argX argY argZ line,
     ConsoleLog ("Using provided origin: " +:+ line) ∈
       Script.trace (resolveOrigin w argX argY argZ) ->
     exists sx sy sz,
       argX = Some sx /\ argY = Some sy /\ argZ = Some sz /\
       sx <> "" /\ sy <> "" /\ sz <> "") /\
  (forall argX argY argZ,
     truthy argX && truthy argY && truthy argZ = false ->
     resolveOrigin w argX argY argZ =
     match nearestPlayer w with
     | Some target =>
         let origin := Vec3.floored (position target) in
         ([ConsoleLog ("Syncing origin with player: " +:+ username target);
           Chat ("/tp @s " +:+ username target);
           WaitForTicks 40; StartFlying;
           ConsoleLog ("Origin set to: " +:+ Vec3.toString origin);
           Chat ("プレイヤー位置を原点としました: " +:+ Vec3.toString origin)],
          Some (Some origin))
     | None =>
         ([ConsoleLog "No player found and no coordinates provided.";
           Chat "座標指定がなく、プレイヤーも見つかりません。"],
          Some None)
     end) /\
  (forall argX argY argZ instrs,
     truthy argX && truthy argY && truthy argZ = false ->
     executePlan w argX argY argZ instrs = executePlan w None None None instrs) /\
  (forall argv fs,
     length argv = 4%nat \/ length argv = 5%nat ->
     script argv fs w = script (take 3 argv) fs w).
Proof.
  split; [|split; [|split]].
  - intros argX argY argZ line Hin.
    apply explicitOrigin_true.
    destruct (explicitOrigin argX argY argZ) eqn:He; [done|exfalso].
    destruct (nearestPlayer w) as [target|] eqn:Hn.
    + rewrite (resolveOrigin_derived w _ _ _ _ He Hn) in Hin.
      apply list_elem_of_In in Hin. simpl in Hin.
      destruct Hin as [Heq|[Heq|[Heq|[Heq|[Heq|[Heq|[]]]]]]]; discriminate Heq.
    + rewrite (resolveOrigin_nobody w _ _ _ He Hn) in Hin.
      apply list_elem_of_In in Hin. simpl in Hin.
      destruct Hin as [Heq|[Heq|[]]]; discriminate Heq.
  - intros argX argY argZ He. destruct (nearestPlayer w) as [target|] eqn:Hn.
    + exact (resolveOrigin_derived w _ _ _ _ He Hn).
    + exact (resolveOrigin_nobody w _ _ _ He Hn).
  - intros argX argY argZ instrs He. by apply executePlan_without_coordinates.
  - intros argv fs Hlen. unfold main, decorationFile, projectDir, targetFileName.
    assert (take 3 argv !! 2%nat = argv !! 2%nat) as -> by (apply lookup_take_lt; lia).
    rewrite !(lookup_take_ge argv 3) by lia.
    rewrite (lookup_ge_None_2 argv 5), (lookup_ge_None_2 argv 6) by lia.
    destruct (negb (truthy (argv !! 2%nat))); [done|].
    destruct (fs !! _) as [[| |plan]|]; try done.
    cbn -[executePlan].
    rewrite (executePlan_without_coordinates w (argv !! 3%nat) (argv !! 4%nat) None); [done|].
    unfold explicitOrigin. apply andb_false_r.
Qed.

(** C10. Coordinates given on the command line reach every placement
    command and every target as [parseFloat] read them, plus the offset;
    nothing floors them. *)
Theorem explicit_origin_not_floored (w : World) (sx sy sz : string)
    (instrs : list Instruction) :
  sx <> "" -> sy <> "" -> sz <> "" ->
  placementCommands (Script.trace (executePlan w (Some sx) (Some sy) (Some sz) instrs)) =
    map (fun instr =>
           "/setblock " +:+ numToString (add (parseFloat sx) (x instr)) +:+ " "
                        +:+ numToString (add (parseFloat sy) (y instr)) +:+ " "
                        +:+ numToString (add (parseFloat sz) (z instr)) +:+ " "
                        +:+ block instr +:+ " replace")
        (List.filter isPlacement instrs) /\
  lookTargets (Script.trace (executePlan w (Some sx) (Some sy) (Some sz) instrs)) =
    map (fun instr =>
           Vec3.make (add (parseFloat sx) (x instr)) (add (parseFloat sy) (y instr))
                     (add (parseFloat sz) (z instr)))
        (List.filter isPlacement instrs).
Proof.
  intros Hx Hy Hz.
  apply (explicit_run w (Some sx) (Some sy) (Some sz) instrs).
  apply explicitOrigin_true. by exists sx, sy, sz.
Qed.
End Coordinates.

(** C9 on a command line with two of the three coordinates, on a server
  with a player: the origin is the player's floored position, and the script
  runs as without coordinates. *)
Lemma partial_coordinates_ignored_demo :
  Script.result (resolveOrigin Demo.inhabited (Some "10.5") (Some "64") None) =
    Some (Some (Demo.vec "10" "64" "-4")) /\
  main Demo.dirname Demo.join ["node"; "index.js"; "demo"; "10.5"; "64"] Demo.fs Demo.inhabited =
  main Demo.dirname Demo.join ["node"; "index.js"; "demo"] Demo.fs Demo.inhabited.
Proof.
  destruct (partial_coordinates_ignored Demo.dirname Demo.join Demo.inhabited)
    as (_ & Hderived & _ & Hscript).
  split.
  - rewrite (Hderived (Some "10.5") (Some "64") None); reflexivity.
  - apply Hscript. right. reflexivity.
Defined.

(** C10 on coordinates off the block grid. *)
Lemma explicit_origin_not_floored_demo :
  placementCommands
    (Script.trace
       (executePlan Demo.inhabited (Some "10.5") (Some "64.25") (Some "-3.5") Demo.single)) =
  ["/setblock 10.5 64.25 -3.5 stone replace"].
Proof.
  apply (explicit_origin_not_floored Demo.inhabited "10.5" "64.25" "-3.5" Demo.single);
    discriminate.
Defined.

(** The same plan from the position of a player standing at those
  coordinates is placed on the floored block. *)
Lemma derived_origin_floored_demo :
  position Demo.steve = Demo.vec "10.5" "64.25" "-3.5" /\
  placementCommands (Script.trace (executePlan Demo.inhabited None None None Demo.single)) =
  ["/setblock 10 64 -4 stone replace"].
Proof. split; reflexivity. Qed.

(** ** Pacing, duration and teleports of the loop *)

Section LoopMeasures.
Context `{JsNumber}.
Variables (w : World) (origin : Vec3.t) (total : nat).

Lemma ticksWaited_app tr1 tr2 :
  ticksWaited (tr1 ++ tr2) = ticksWaited tr1 + ticksWaited tr2.
Proof. apply sum_list_with_app. Qed.

Lemma repositions_app tr1 tr2 :
  repositionCommands (tr1 ++ tr2) = repositionCommands tr1 ++ repositionCommands tr2.
Proof. apply omap_app. Qed.

Lemma work_app tr1 tr2 : work (tr1 ++ tr2) = work tr1 ++ work tr2.
Proof. apply omap_app. Qed.

Lemma crowded_app pending tr1 tr2 :
  crowded pending (tr1 ++ tr2) =
  crowded pending tr1 || crowded (pendingAfter pending tr1) tr2.
Proof.
  revert pending. induction tr1 as [|e tr1 IH]; intros pending; [done|].
  destruct e; simpl; rewrite ?IH; try done.
  by rewrite orb_assoc.
Qed.

Lemma pendingAfter_app pending tr1 tr2 :
  pendingAfter pending (tr1 ++ tr2) = pendingAfter (pendingAfter pending tr1) tr2.
Proof.
  revert pending. induction tr1 as [|e tr1 IH]; intros pending; [done|].
  destruct e; simpl; by rewrite ?IH.
Qed.

(** One pass: it waits 5 ticks, and 20 more for its teleport if it has
  one; it has at most one teleport, and only when it places. *)
Lemma loopBody_measures count instr :
  let pass := Script.trace (loopBody w origin total count instr) in
  ticksWaited pass = 5 + 20 * length (repositionCommands pass) /\
  length (repositionCommands pass) <= length (placementCommands pass) /\
  length (placementCommands pass) <= 1 /\
  crowded false pass = false /\
  (forall pending, pendingAfter pending pass = false).
Proof.
  intros pass. subst pass. rewrite loopBody_trace.
  destruct (isPlacement instr); [|repeat split; simpl; lia].
  destruct (gtb _ _), (logsProgress _ _); repeat split; simpl; lia.
Qed.

(** One pass sends a chat message before any wait exactly when it
  places. *)
Lemma loopBody_crowded pending count instr :
  crowded pending (Script.trace (loopBody w origin total count instr)) =
  pending && isPlacement instr.
Proof.
  rewrite loopBody_trace.
  destruct (isPlacement instr); [|by rewrite andb_false_r].
  destruct (gtb _ _), (logsProgress _ _), pending; reflexivity.
Qed.

(** Entered right after a wait, the loop keeps a wait between any two of
  its chat messages, and ends on a wait. *)
Lemma forOf_paced_after_wait (count : nat) (instrs : list Instruction) :
  crowded false (Script.trace (forOf w origin total count instrs)) = false /\
  pendingAfter false (Script.trace (forOf w origin total count instrs)) = false.
Proof.
  revert count. induction instrs as [|instr instrs IH]; intros count; [done|].
  rewrite forOf_cons, crowded_app, pendingAfter_app.
  destruct (loopBody_measures (S count) instr) as (_ & _ & _ & Hc & Hp).
  rewrite Hc, !Hp. apply IH.
Qed.

(** X4. A wait separates any two chat messages that the loop sends, and a
  loop over a plan that is not empty ends on a wait.  The one chat message
  of the loop that can come right after another message is its first, when
  the first instruction places and a message was sent since the last wait
  before the loop.  The explicit origin path enters the loop after a wait;
  the derived path enters it right after its chat message about the
  origin. *)
Theorem loop_chat_pacing (pending : bool) (count : nat) (instrs : list Instruction) :
  let run := Script.trace (forOf w origin total count instrs) in
  crowded pending run =
    pending && match instrs with instr :: _ => isPlacement instr | [] => false end /\
  pendingAfter pending run = match instrs with [] => pending | _ :: _ => false end /\
  (forall before argX argY argZ,
     truthy argX && truthy argY && truthy argZ = true ->
     pendingAfter before (Script.trace (resolveOrigin w argX argY argZ)) = false) /\
  (forall before argX argY argZ target,
     truthy argX && truthy argY && truthy argZ = false ->
     nearestPlayer w = Some target ->
     pendingAfter before (Script.trace (resolveOrigin w argX argY argZ)) = true).
Proof.
  intros run. subst run. split; [|split; [|split]].
  - destruct instrs as [|instr rest]; [by rewrite andb_false_r|].
    rewrite forOf_cons, crowded_app, loopBody_crowded.
    destruct (loopBody_measures (S count) instr) as (_ & _ & _ & _ & ->).
    destruct (forOf_paced_after_wait (S count) rest) as [-> _]. apply orb_false_r.
  - destruct instrs as [|instr rest]; [done|].
    rewrite forOf_cons, pendingAfter_app.
    destruct (loopBody_measures (S count) instr) as (_ & _ & _ & _ & ->).
    by destruct (forOf_paced_after_wait (S count) rest) as [_ ->].
  - intros before argX argY argZ He. by rewrite (resolveOrigin_explicit w _ _ _ He).
  - intros before argX argY argZ target He Hn.
    by rewrite (resolveOrigin_derived w _ _ _ _ He Hn).
Qed.

(** X5. The loop waits 5 ticks for every instruction of the plan and 20 more
  for every teleport: between 5 and 25 ticks an instruction. *)
Theorem loop_duration (count : nat) (instrs : list Instruction) :
  let run := Script.trace (forOf w origin total count instrs) in
  ticksWaited run = 5 * length instrs + 20 * length (repositionCommands run) /\
  5 * length instrs <= ticksWaited run <= 25 * length instrs.
Proof.
  revert count. induction instrs as [|instr instrs IH]; intros count run.
  - subst run. simpl. lia.
  - subst run. rewrite forOf_cons, ticksWaited_app, repositions_app, length_app.
    destruct (loopBody_measures (S count) instr) as (Ht & Hr & Hp & _).
    destruct (IH (S count)) as [IHt IHb].
    rewrite Ht, IHt. simpl length. lia.
Qed.

(** X6. The loop teleports at most once for each placement command; and
  when the bot is within reach of (not farther than 4 from) every target as
  it gets to it, the loop never teleports. *)
Theorem loop_teleports_bounded (instrs : list Instruction) :
  let run := Script.trace (forOf w origin total 0 instrs) in
  length (repositionCommands run) <= length (placementCommands run) /\
  ((forall k instr,
      instrs !! k = Some instr ->
      gtb (Vec3.distanceTo (botPosition w (S k))
             (Vec3.offset origin (x instr) (y instr) (z instr))) (lit 4) = false) ->
   repositionCommands run = []).
Proof.
  intros run. subst run. split.
  - generalize 0. induction instrs as [|instr instrs IH]; intros count; [done|].
    rewrite forOf_cons, repositions_app, placementCommands_app, !length_app.
    destruct (loopBody_measures (S count) instr) as (_ & Hr & _).
    specialize (IH (S count)). lia.
  - assert (forall count,
              (forall k instr,
                 instrs !! k = Some instr ->
                 gtb (Vec3.distanceTo (botPosition w (S (count + k)))
                        (Vec3.offset origin (x instr) (y instr) (z instr))) (lit 4) = false) ->
              repositionCommands (Script.trace (forOf w origin total count instrs)) = [])
      as Hgen.
    { induction instrs as [|instr instrs IH]; intros count Hnear; [done|].
      rewrite forOf_cons, repositions_app, IH.
      - rewrite app_nil_r, loopBody_trace.
        specialize (Hnear 0 instr eq_refl). rewrite Nat.add_0_r in Hnear. rewrite Hnear.
        destruct (isPlacement instr); [|done].
        by destruct (logsProgress _ _).
      - intros k instr' Hk. specialize (Hnear (S k) instr' Hk).
        by replace (S count + k) with (count + S k) by lia. }
    intros Hnear. apply Hgen. exact Hnear.
Qed.

(** X7. The loop turns the bot to a target right before it places there:
  its turns and placements are, instruction by instruction of the [setblock]
  and [place] ones, the turn to the target and then the command for it. *)
Theorem loop_faces_each_target (count : nat) (instrs : list Instruction) :
  work (Script.trace (forOf w origin total count instrs)) =
  flat_map (fun instr =>
              let targetPos := Vec3.offset origin (x instr) (y instr) (z instr) in
              [inl targetPos; inr (setblockCommand targetPos (block instr))])
           (List.filter isPlacement instrs).
Proof.
  revert count. induction instrs as [|instr instrs IH]; intros count; [done|].
  rewrite forOf_cons, work_app, IH, loopBody_trace. simpl.
  destruct (isPlacement instr); [|done].
  destruct (gtb _ _), (logsProgress _ _); reflexivity.
Qed.

(** X11. A plan without any [setblock] or [place] instruction costs its
  5 ticks an entry and nothing else: the loop is that many waits. *)
Theorem notes_only_wait (count : nat) (instrs : list Instruction) :
  Forall (fun instr => action instr <> "setblock" /\ action instr <> "place") instrs ->
  Script.trace (forOf w origin total count instrs) =
  replicate (length instrs) (WaitForTicks 5).
Proof.
  intros Hnotes. revert count.
  induction Hnotes as [|instr instrs [Hs Hp] _ IH]; intros count; [done|].
  rewrite forOf_cons, IH, loopBody_trace.
  unfold isPlacement.
  apply String.eqb_neq in Hs, Hp. by rewrite Hs, Hp.
Qed.
End LoopMeasures.

(** ** Progress lines of any plan *)

Section ProgressVolume.
Context `{JsNumber}.
Variables (w : World) (origin : Vec3.t).

(** Passing from count [c] to [c + 1] the cadence test can hold only if a
  multiple of 5, the count 1 or the total is reached. *)
Lemma cadence_step (total c : nat) :
  (if logsProgress (S c) total then 1 else 0) + c / 5
    + (if Nat.leb 1 (c) then 1 else 0) + (if Nat.leb total (c) then 1 else 0)
  <= S c / 5 + (if Nat.leb 1 (S c) then 1 else 0) + (if Nat.leb total (S c) then 1 else 0).
Proof.
  unfold logsProgress.
  pose proof (Nat.div_mod_eq (S c) 5) as Hs. pose proof (Nat.div_mod_eq c 5) as Hc.
  pose proof (Nat.mod_upper_bound (S c) 5) as Hsr. pose proof (Nat.mod_upper_bound c 5) as Hcr.
  generalize dependent (S c / 5). generalize dependent (S c mod 5).
  generalize dependent (c / 5). generalize dependent (c mod 5).
  intros r0 q0 Hc Hcr r1 Hsr q1 Hs.
  destruct (Nat.eqb_spec r1 0), (Nat.eqb_spec (S c) 1), (Nat.eqb_spec (S c) total);
    destruct (Nat.leb_spec 1 c), (Nat.leb_spec total c), (Nat.leb_spec 1 (S c)),
      (Nat.leb_spec total (S c)); cbn [orb]; lia.
Qed.

Lemma progress_lines_counted (total count : nat) (instrs : list Instruction) :
  length (consoleLines (Script.trace (forOf w origin total count instrs)))
    + count / 5 + (if Nat.leb 1 (count) then 1 else 0) + (if Nat.leb total (count) then 1 else 0)
  <= (count + length instrs) / 5 + (if Nat.leb 1 (count + length instrs) then 1 else 0)
     + (if Nat.leb total (count + length instrs) then 1 else 0).
Proof.
  revert count. induction instrs as [|instr instrs IH]; intros count.
  - simpl. by rewrite Nat.add_0_r.
  - rewrite forOf_cons, consoleLines_app, length_app, consoleLines_loopBody.
    specialize (IH (S count)). pose proof (cadence_step total count) as Hstep.
    simpl length in *. replace (count + S (length instrs)) with (S count + length instrs) by lia.
    destruct (isPlacement instr), (logsProgress (S count) total); simpl length; lia.
Qed.

(** X8. Whatever the length of the plan, the loop writes at most one
  progress line for every five instructions and two more, and never more
  lines than it issues placement commands. *)
Theorem progress_lines_bounded (instrs : list Instruction) :
  let run := Script.trace (forOf w origin (length instrs) 0 instrs) in
  length (consoleLines run) <= length instrs / 5 + 2 /\
  length (consoleLines run) <= length (placementCommands run).
Proof.
  intros run. subst run. split.
  - pose proof (progress_lines_counted (length instrs) 0 instrs) as Hcount.
    rewrite Nat.add_0_l in Hcount. change (0 / 5) with 0 in Hcount.
    destruct (Nat.leb 1 (length instrs)), (Nat.leb (length instrs) 0),
      (Nat.leb (length instrs) (length instrs)), (Nat.leb 1 0); lia.
  - generalize 0, (length instrs). intros count total. revert count.
    induction instrs as [|instr instrs IH]; intros count; [done|].
    rewrite forOf_cons, consoleLines_app, placementCommands_app, !length_app.
    rewrite consoleLines_loopBody, placementCommands_loopBody.
    specialize (IH (S count)).
    destruct (isPlacement instr), (logsProgress (S count) total); simpl length; lia.
Qed.
End ProgressVolume.

(** ** Whole runs *)

Section WholeRuns.
Context `{JsNumber}.

(** The loop asks the server for the position of the bot and for nothing
  else. *)
Lemma forOf_positions w1 w2 origin total count instrs :
  (forall c, botPosition w1 c = botPosition w2 c) ->
  forOf w1 origin total count instrs = forOf w2 origin total count instrs.
Proof.
  intros Hpos. revert count. induction instrs as [|instr instrs IH]; intros count; [done|].
  simpl. unfold loopBody. by rewrite Hpos, IH.
Qed.

(** X9. A plan cut in two and built in two runs gets the placement commands
  of the one run over the whole plan, in the same order, as long as the
  three runs resolve the same origin. *)
Theorem placements_of_split_plan (w w1 w2 : World) (argX argY argZ : option string)
    (first second : list Instruction) (origin : Vec3.t) :
  Script.result (resolveOrigin w argX argY argZ) = Some (Some origin) ->
  Script.result (resolveOrigin w1 argX argY argZ) = Some (Some origin) ->
  Script.result (resolveOrigin w2 argX argY argZ) = Some (Some origin) ->
  placementCommands (Script.trace (executePlan w argX argY argZ (first ++ second))) =
  placementCommands (Script.trace (executePlan w1 argX argY argZ first)) ++
  placementCommands (Script.trace (executePlan w2 argX argY argZ second)).
Proof.
  intros Hr Hr1 Hr2.
  rewrite (placementCommands_executePlan w _ _ _ _ origin Hr).
  rewrite (placementCommands_executePlan w1 _ _ _ _ origin Hr1).
  rewrite (placementCommands_executePlan w2 _ _ _ _ origin Hr2).
  by rewrite List.filter_app, map_app.
Qed.

(** X10. With three coordinates on the command line the players on the
  server play no part: two servers that move the bot alike give the same
  run, action for action. *)
Theorem explicit_run_ignores_players (w1 w2 : World) (argX argY argZ : option string)
    (instrs : list Instruction) :
  truthy argX && truthy argY && truthy argZ = true ->
  (forall count, botPosition w1 count = botPosition w2 count) ->
  executePlan w1 argX argY argZ instrs = executePlan w2 argX argY argZ instrs.
Proof.
  intros He Hpos. unfold executePlan.
  rewrite (resolveOrigin_explicit w1 _ _ _ He), (resolveOrigin_explicit w2 _ _ _ He).
  cbn -[forOf]. by rewrite (forOf_positions w1 w2 _ _ _ _ Hpos).
Qed.
End WholeRuns.

(** X9 on the cabin, its first entry in one run and the rest in another. *)
Lemma placements_of_split_plan_cabin :
  placementCommands
    (Script.trace (executePlan Demo.deserted (Some "10") (Some "64") (Some "10") Demo.cabin)) =
  placementCommands
    (Script.trace (executePlan Demo.obedient (Some "10") (Some "64") (Some "10")
                     (take 1 Demo.cabin))) ++
  placementCommands
    (Script.trace (executePlan Demo.inhabited (Some "10") (Some "64") (Some "10")
                     (drop 1 Demo.cabin))).
Proof.
  apply (placements_of_split_plan Demo.deserted Demo.obedient Demo.inhabited
           (Some "10") (Some "64") (Some "10") (take 1 Demo.cabin) (drop 1 Demo.cabin)
           (Demo.vec "10" "64" "10")); reflexivity.
Defined.

(** X10 on a server with a player and one without, the bot hovering at
  the same place on both. *)
Lemma explicit_run_ignores_players_demo :
  executePlan Demo.deserted (Some "10") (Some "64") (Some "10") Demo.cabin =
  executePlan {| nearestPlayer := Some Demo.steve; botPosition := botPosition Demo.deserted |}
    (Some "10") (Some "64") (Some "10") Demo.cabin.
Proof.
  apply (explicit_run_ignores_players Demo.deserted
           {| nearestPlayer := Some Demo.steve; botPosition := botPosition Demo.deserted |}
           (Some "10") (Some "64") (Some "10") Demo.cabin); reflexivity.
Defined.

(** X6 on the row with the bot escorted from stone to stone. *)
Lemma loop_teleports_bounded_escort :
  repositionCommands
    (Script.trace (forOf Demo.escort (Demo.vec "10.5" "64" "10") 12 0 Demo.row)) = [].
Proof.
  apply (loop_teleports_bounded Demo.escort (Demo.vec "10.5" "64" "10") 12 Demo.row).
  intros k instr Hk.
  do 12 (destruct k as [|k]; [injection Hk as <-; reflexivity|]).
  discriminate Hk.
Defined.

(** X11 on a plan of three notes. *)
Lemma notes_only_wait_demo :
  Script.trace (forOf Demo.deserted (Demo.vec "10" "64" "10") 3 0 Demo.notes) =
  [WaitForTicks 5; WaitForTicks 5; WaitForTicks 5].
Proof.
  apply (notes_only_wait Demo.deserted (Demo.vec "10" "64" "10") 3 0 Demo.notes).
  repeat constructor; discriminate.
Defined.

(** ** How the process ends, and what precedes a placement *)

Section Endings.
Context `{JsNumber}.
Variable dirname : string.
Variable path_join : list string -> string.

Local Abbreviation script := (main dirname path_join).
Local Abbreviation planFile := (decorationFile dirname path_join).




(** X2. A plan file that is there but is not JSON stops the script after
  the loading line, on the exception of [JSON.parse]: no bot is created,
  nothing is placed, and the process exits with code 1. *)
Theorem malformed_plan_is_fatal (argv : list string) (fs : gmap string FileContent)
    (w : World) :
  truthy (argv !! 2%nat) = true ->
  fs !! planFile argv = Some NotJson ->
  script argv fs w =
  ([ConsoleLog ("Loading plan from: " +:+ targetFileName argv +:+ " for project: "
                  +:+ stringOf (argv !! 2%nat));
    Uncaught "SyntaxError"], None) /\
  existsb connects (Script.trace (script argv fs w)) = false /\
  placementCommands (Script.trace (script argv fs w)) = [] /\
  processStatus (Script.trace (script argv fs w)) = Exited 1.
Proof.
  intros Hp Hf.
  assert (script argv fs w =
          ([ConsoleLog ("Loading plan from: " +:+ targetFileName argv +:+ " for project: "
                          +:+ stringOf (argv !! 2%nat));
            Uncaught "SyntaxError"], None)) as ->
    by (unfold main; by rewrite Hp, Hf).
  done.
Qed.
End Endings.

(** X2 on the broken plan file of the samples. *)
Lemma malformed_plan_is_fatal_demo :
  main Demo.dirname Demo.join ["node"; "index.js"; "demo"; "10"; "64"; "10"; "broken.json"]
    Demo.fs Demo.inhabited =
  ([ConsoleLog "Loading plan from: broken.json for project: demo"; Uncaught "SyntaxError"],
   None).
Proof.
  apply (malformed_plan_is_fatal Demo.dirname Demo.join
           ["node"; "index.js"; "demo"; "10"; "64"; "10"; "broken.json"]
           Demo.fs Demo.inhabited); reflexivity.
Defined.

Section BeforePlacing.
Context `{JsNumber}.
Variable dirname : string.
Variable path_join : list string -> string.

Local Abbreviation script := (main dirname path_join).
Local Abbreviation planFile := (decorationFile dirname path_join).

Lemma placement_at_is_listed (tr : list Event) (i : nat) (cmd : string) :
  tr !! i = Some (Chat cmd) ->
  startsWith cmd "/setblock " = true ->
  cmd ∈ placementCommands tr.
Proof.
  intros Hi Hcmd. apply list_elem_of_omap. exists (Chat cmd).
  split; [by eapply list_elem_of_lookup_2|]. unfold placementOf. by rewrite Hcmd.
Qed.

(** The action at position [i] of a run that opens with known actions is
  one of these, or lies beyond them. *)
Ltac past_opening Hi Hcmd i cmd :=
  repeat (destruct i as [|i];
          [exfalso; cbn in Hi;
           first [discriminate Hi
                 |injection Hi as Hi; subst cmd; compute in Hcmd; discriminate Hcmd]|]).

(** X3. In every run of the script, a placement command comes only after
  the bot was put in creative mode and, later, set flying. *)
Theorem placement_only_in_flight (argv : list string) (fs : gmap string FileContent)
    (w : World) (i : nat) (cmd : string) :
  Script.trace (script argv fs w) !! i = Some (Chat cmd) ->
  startsWith cmd "/setblock " = true ->
  exists creative flying,
    creative < flying < i /\
    Script.trace (script argv fs w) !! creative = Some (Chat "/gamemode creative") /\
    Script.trace (script argv fs w) !! flying = Some StartFlying.
Proof.
  intros Hi Hcmd.
  pose proof (placement_at_is_listed _ _ _ Hi Hcmd) as Hlisted.
  destruct (truthy (argv !! 2%nat)) eqn:Hp;
    [|unfold main in Hlisted; rewrite Hp in Hlisted; by apply elem_of_nil in Hlisted].
  destruct (fs !! planFile argv) as [[| |plan]|] eqn:Hf;
    [unfold main in Hlisted; rewrite Hp, Hf in Hlisted; by apply elem_of_nil in Hlisted|
     unfold main in Hlisted; rewrite Hp, Hf in Hlisted; by apply elem_of_nil in Hlisted|
    |unfold main in Hlisted; rewrite Hp, Hf in Hlisted; by apply elem_of_nil in Hlisted].
  rewrite (main_reaches_executePlan dirname path_join argv fs w plan Hp Hf) in *.
  set (instrs := default [] (instructions plan)) in *.
  destruct (explicitOrigin (argv !! 3%nat) (argv !! 4%nat) (argv !! 5%nat)) eqn:He.
  - rewrite (executePlan_resolved w _ _ _ instrs _
               (f_equal Script.result (resolveOrigin_explicit w _ _ _ He))) in *.
    rewrite (resolveOrigin_explicit w _ _ _ He) in *.
    cbn [Script.trace fst app] in *. clear Hlisted.
    exists 4, 11. split; [|done].
    past_opening Hi Hcmd i cmd. lia.
  - destruct (nearestPlayer w) as [target|] eqn:Hn.
    + rewrite (executePlan_resolved w _ _ _ instrs _
                 (f_equal Script.result (resolveOrigin_derived w _ _ _ _ He Hn))) in *.
      rewrite (resolveOrigin_derived w _ _ _ _ He Hn) in *.
      cbn [Script.trace fst app] in *. clear Hlisted.
      exists 4, 10. split; [|done].
      past_opening Hi Hcmd i cmd. lia.
    + rewrite (executePlan_unresolved w _ _ _ instrs
                 (f_equal Script.result (resolveOrigin_nobody w _ _ _ He Hn))) in Hlisted.
      rewrite (resolveOrigin_nobody w _ _ _ He Hn) in Hlisted.
      by apply elem_of_nil in Hlisted.
Qed.
End BeforePlacing.

(** X3 on the first stone of the cabin, the seventeenth action of its
  run. *)
Lemma placement_only_in_flight_cabin :
  let run := Script.trace (main Demo.dirname Demo.join
                             ["node"; "index.js"; "demo"; "10"; "64"; "10"]
                             Demo.fs Demo.deserted) in
  exists creative flying,
    creative < flying < 16 /\
    run !! creative = Some (Chat "/gamemode creative") /\
    run !! flying = Some StartFlying.
Proof.
  apply (placement_only_in_flight Demo.dirname Demo.join
           ["node"; "index.js"; "demo"; "10"; "64"; "10"] Demo.fs Demo.deserted
           16 "/setblock 10 64 10 stone replace"); reflexivity.
Defined.

(** X4 on the cabin built from a player's position: the derived path
  leaves its message about the origin pending, and the first chat message of
  the loop comes right after it. *)
Lemma loop_chat_pacing_demo :
  pendingAfter false (Script.trace (resolveOrigin Demo.inhabited None None None)) = true /\
  crowded true (Script.trace (forOf Demo.inhabited (Demo.vec "10" "64" "-4") 3 0 Demo.cabin))
    = true.
Proof.
  destruct (loop_chat_pacing Demo.inhabited (Demo.vec "10" "64" "-4") 3 true 0 Demo.cabin)
    as (Hcrowded & _ & _ & Hderived).
  split.
  - apply (Hderived false None None None Demo.steve); reflexivity.
  - exact Hcrowded.
Defined.
